(** * Claude Run: the game scaffold and its planned kinematic core

    The repository is a Phaser 3 + TypeScript scaffold: [main.ts] builds the
    game configuration, [GameScene] renders two placeholder texts and logs a
    key press, and the architecture document sketches the planned movement
    loop and its constants.

    JavaScript numbers are idealised as rationals ([Q]); numeric equality is
    [Qeq] ([==]).  Engine objects are records, the engine's mutable state is
    threaded through a state monad, and the one closure handed to the engine
    is defunctionalised into a constructor of [Callback]. *)

From Stdlib Require Import ZArith QArith Qminmax Qabs.
From Stdlib Require Import List String Bool Lia Lqa.
From ExtLib Require Import Structures.Monad Structures.MonadState.
From ExtLib Require Import Data.Monads.StateMonad.
Import ListNotations.
Import MonadNotation.
Local Open Scope monad_scope.
Local Open Scope Q_scope.

(* ===================================================================== *)
(** * Part I: definitions *)
(* ===================================================================== *)

(** ** The fragment of the Phaser API that the sources call *)

Module Phaser.

(** [Phaser.AUTO] and its siblings. *)
Inductive RendererType : Type := AUTO | CANVAS | WEBGL | HEADLESS.

(** Scene classes named by the sources: [GameScene] is implemented,
    [BootScene] and [MenuScene] are only named by the architecture
    document's configuration. *)
Inductive SceneClass : Type := BootScene | MenuScene | GameScene.

(** The built-in physics systems a configuration can select. *)
Inductive PhysicsSystem : Type := Arcade | Matter.

Record PhysicsConfig : Type := {
  default : option PhysicsSystem
}.

(** [Phaser.Types.Core.GameConfig]: every field is optional in the
    TypeScript type, so an absent field is [None] (for [scene], which the
    engine reads as a list, the empty list). *)
Record GameConfig : Type := {
  type : option RendererType;
  width : option Z;
  height : option Z;
  parent : option string;
  pixelArt : option bool;
  backgroundColor : option string;
  scene : list SceneClass;
  physics : option PhysicsConfig
}.

(** The physics system the engine starts for a configuration: the one named
    by [physics.default], none when the [physics] field is absent. *)
Definition enabledPhysics (c : GameConfig) : option PhysicsSystem :=
  match physics c with
  | None => None
  | Some p => default p
  end.

Record TextStyle : Type := {
  fontSize : string;
  color : string;
  fontFamily : string
}.

(** A [Phaser.GameObjects.Text]; a fresh one has origin (0, 0). *)
Record Text : Type := {
  text_x : Q;
  text_y : Q;
  text : string;
  style : TextStyle;
  originX : Q;
  originY : Q
}.

(** Closures the sources hand to the engine.  There is one: the arrow
    function registered for [keydown-SPACE] in [GameScene.create]. *)
Inductive Callback : Type := SpaceCallback.

Record Listener : Type := {
  event : string;
  callback : Callback
}.

(** What a scene owns: its key, its display list, and the keyboard plugin
    ([this.input.keyboard], of type [KeyboardPlugin | null]) with the
    listeners registered on it. *)
Record Scene : Type := {
  key : string;
  displayList : list Text;
  keyboard : option (list Listener)
}.

(** The state the program can touch: the scene and the console. *)
Record World : Type := {
  this : Scene;
  console : list string
}.

Definition set_displayList (l : list Text) (s : Scene) : Scene :=
  {| key := key s; displayList := l; keyboard := keyboard s |}.

Definition set_keyboard (k : option (list Listener)) (s : Scene) : Scene :=
  {| key := key s; displayList := displayList s; keyboard := k |}.

Definition set_this (s : Scene) (w : World) : World :=
  {| this := s; console := console w |}.

(** Replace the element at index [i]; out of range nothing changes. *)
Fixpoint replace_nth {A : Type} (i : nat) (a : A) (l : list A) : list A :=
  match l, i with
  | [], _ => []
  | _ :: t, O => a :: t
  | h :: t, S j => h :: replace_nth j a t
  end.

(** [this.add.text(x, y, text, style)]: creates the text object, appends
    it to the display list and returns a reference to it (its index). *)
Definition add_text (x y : Q) (s : string) (st : TextStyle)
  : state World nat :=
  w <- get ;;
  let obj := {| text_x := x; text_y := y; text := s; style := st;
                originX := 0; originY := 0 |} in
  put (set_this (set_displayList (displayList (this w) ++ [obj]) (this w)) w) ;;
  ret (List.length (displayList (this w))).

(** [obj.setOrigin(v)]: with one argument both origins become [v]. *)
Definition setOrigin (v : Q) (ref : nat) : state World unit :=
  w <- get ;;
  match nth_error (displayList (this w)) ref with
  | None => ret tt
  | Some obj =>
      let obj' := {| text_x := text_x obj; text_y := text_y obj;
                     text := text obj; style := style obj;
                     originX := v; originY := v |} in
      put (set_this (set_displayList
                       (replace_nth ref obj' (displayList (this w)))
                       (this w)) w)
  end.

(** [this.input.keyboard?.on(ev, cb)]: the optional chaining skips the
    call when the keyboard plugin is null. *)
Definition keyboard_on (ev : string) (cb : Callback) : state World unit :=
  w <- get ;;
  match keyboard (this w) with
  | None => ret tt
  | Some ls =>
      put (set_this (set_keyboard
                       (Some (ls ++ [{| event := ev; callback := cb |}]))
                       (this w)) w)
  end.

(** [console.log(msg)]. *)
Definition console_log (msg : string) : state World unit :=
  w <- get ;;
  put {| this := this w; console := console w ++ [msg] |}.

End Phaser.

(** ** [src/main.ts] *)

Module Main.
Import Phaser.

Definition config : GameConfig := {|
  type := Some AUTO;
  width := Some 1280%Z;
  height := Some 720%Z;
  parent := Some "game"%string;
  pixelArt := Some true;
  backgroundColor := Some "#1a1a2e"%string;
  scene := [GameScene];
  physics := None
|}.

End Main.

(** ** [GameScene] *)

Module GameScene.
Import Phaser.

(** [constructor() { super({ key: 'GameScene' }); }]; the keyboard plugin
    is the engine's to provide. *)
Definition constructor (kb : option (list Listener)) : Scene :=
  {| key := "GameScene"%string; displayList := []; keyboard := kb |}.

(** [preload() { }] *)
Definition preload : state World unit := ret tt.

Definition titleStyle : TextStyle :=
  {| fontSize := "64px"; color := "#ffffff"; fontFamily := "Arial" |}.

Definition promptStyle : TextStyle :=
  {| fontSize := "24px"; color := "#888888"; fontFamily := "Arial" |}.

(** The body of the arrow function, and of every other callback. *)
Definition call (cb : Callback) : state World unit :=
  match cb with
  | SpaceCallback => console_log "Game starting..."%string
  end.

Definition create : state World unit :=
  t1 <- add_text 640 360 "Claude Run"%string titleStyle ;;
  setOrigin (1 # 2) t1 ;;
  t2 <- add_text 640 440 "Press SPACE to start"%string promptStyle ;;
  setOrigin (1 # 2) t2 ;;
  keyboard_on "keydown-SPACE"%string SpaceCallback.

(** [update(_time, _delta) { }] *)
Definition update (_time _delta : Q) : state World unit := ret tt.

(** What reaches the scene from outside once it runs: the keyboard plugin
    emitting a named event, and the engine's frame callback. *)
Inductive Event : Type :=
| Emit (name : string)
| Frame (time delta : Q).

(** The plugin calls, in registration order, the listeners of the emitted
    event. *)
Fixpoint emit (name : string) (ls : list Listener) : state World unit :=
  match ls with
  | [] => ret tt
  | l :: rest =>
      (if String.eqb (event l) name then call (callback l) else ret tt) ;;
      emit name rest
  end.

Definition dispatch (e : Event) : state World unit :=
  match e with
  | Emit name =>
      w <- get ;;
      match keyboard (this w) with
      | None => ret tt
      | Some ls => emit name ls
      end
  | Frame time delta => update time delta
  end.

Fixpoint run (es : list Event) : state World unit :=
  match es with
  | [] => ret tt
  | e :: rest => dispatch e ;; run rest
  end.

Definition exec {A : Type} (m : state World A) (w : World) : World :=
  snd (runState m w).

(** The two texts as [create] leaves them. *)
Definition title : Text :=
  {| text_x := 640; text_y := 360; text := "Claude Run"%string;
     style := titleStyle; originX := 1 # 2; originY := 1 # 2 |}.

Definition prompt : Text :=
  {| text_x := 640; text_y := 440; text := "Press SPACE to start"%string;
     style := promptStyle; originX := 1 # 2; originY := 1 # 2 |}.

Definition spaceListener : Listener :=
  {| event := "keydown-SPACE"%string; callback := SpaceCallback |}.

(** The number of listeners a scene has registered. *)
Definition listenerCount (s : Scene) : nat :=
  match keyboard s with
  | None => O
  | Some ls => List.length ls
  end.

(** How many of the listeners [ls] listen for the event [name]. *)
Fixpoint listening (name : string) (ls : list Listener) : nat :=
  match ls with
  | [] => O
  | l :: rest =>
      ((if String.eqb (event l) name then 1 else 0) + listening name rest)%nat
  end.

Definition listenerCalls (s : Scene) (name : string) : nat :=
  match keyboard s with
  | None => O
  | Some ls => listening name ls
  end.

(** How many handler calls the events [es] cause on the scene [s]. *)
Fixpoint logged (s : Scene) (es : list Event) : nat :=
  match es with
  | [] => O
  | Emit name :: rest => (listenerCalls s name + logged s rest)%nat
  | Frame _ _ :: rest => logged s rest
  end.

(** A freshly constructed scene with no keyboard plugin, and one with. *)
Definition worldWithoutKeyboard : World :=
  {| this := constructor None; console := [] |}.

Definition worldWithKeyboard : World :=
  {| this := constructor (Some []); console := [] |}.

(** The engine starts a scene by calling [preload], then [create]. *)
Definition start : state World unit := preload ;; create.

(** [create] called [n] times in a row on the same scene. *)
Fixpoint createTimes (n : nat) : state World unit :=
  match n with
  | O => ret tt
  | S k => create ;; createTimes k
  end.

(** A freshly constructed scene, with the console as it stands. *)
Definition freshWorld (kb : option (list Listener)) (c : list string) : World :=
  {| this := constructor kb; console := c |}.

(** How many of the events [es] are emissions of the event [name]. *)
Fixpoint emissions (name : string) (es : list Event) : nat :=
  match es with
  | [] => O
  | Emit n :: rest =>
      ((if String.eqb n name then 1 else 0) + emissions name rest)%nat
  | Frame _ _ :: rest => emissions name rest
  end.

(** [n] pairs of the two texts, in display order. *)
Fixpoint textPairs (n : nat) : list Text :=
  match n with
  | O => []
  | S k => title :: prompt :: textPairs k
  end.

End GameScene.

(** ** The architecture document: configuration, constants and the
       movement resolution order *)

Module Architecture.
Import Phaser.

(** The document's [Phaser Config] block. *)
Definition config : GameConfig := {|
  type := Some AUTO;
  width := Some 1280%Z;
  height := Some 720%Z;
  parent := None;
  pixelArt := Some true;
  backgroundColor := Some "#000"%string;
  scene := [BootScene; MenuScene; GameScene];
  physics := None
|}.

(** The shape of the [PLAYER_CONFIG] object. *)
Record MovementConstants : Type := {
  MOVE_SPEED : Q;
  ACCELERATION : Q;
  FRICTION : Q;
  GRAVITY : Q;
  JUMP_VELOCITY : Q;
  MAX_FALL_SPEED : Q;
  COYOTE_TIME : Q;
  JUMP_BUFFER : Q
}.

Definition PLAYER_CONFIG : MovementConstants := {|
  MOVE_SPEED := 200;
  ACCELERATION := 1500;
  FRICTION := 2000;
  GRAVITY := 1200;
  JUMP_VELOCITY := -400;
  MAX_FALL_SPEED := 600;
  COYOTE_TIME := 100;
  JUMP_BUFFER := 100
|}.

(** The state of the document's [Player] entity; [velocity] is the nested
    object [{ x, y }], and the sprite, a rendering handle, is left out. *)
Record Velocity : Type := {
  velocity_x : Q;
  velocity_y : Q
}.

Record Player : Type := {
  x : Q;
  y : Q;
  velocity : Velocity;
  grounded : bool
}.

(** The statements of [update], as they are executed. *)
Inductive Step : Type :=
| ApplyGravity
| MoveX (displacement : Q)
| MoveY (displacement : Q).

(** A run of [update]: the entity, and the steps executed so far. *)
Record Run : Type := {
  self : Player;
  steps : list Step
}.

Definition perform (s : Step) (f : Player -> Player) : state Run unit :=
  r <- get ;;
  put {| self := f (self r); steps := steps r ++ [s] |}.

Definition add_velocity_y (dv : Q) (p : Player) : Player :=
  {| x := x p; y := y p;
     velocity := {| velocity_x := velocity_x (velocity p);
                    velocity_y := velocity_y (velocity p) + dv |};
     grounded := grounded p |}.

Section Update.
(** [GRAVITY] is read from the constants; [moveX] and [moveY] are
    methods the document calls and does not define. *)
Variable constants : MovementConstants.
Variables moveX moveY : Q -> Player -> Player.

(** [function update(delta)]: each call argument is evaluated when its
    statement is reached, on the entity as the statements before left
    it. *)
Definition update (delta : Q) : state Run unit :=
  perform ApplyGravity (add_velocity_y (GRAVITY constants * delta)) ;;
  r1 <- get ;;
  let dx := velocity_x (velocity (self r1)) * delta in
  perform (MoveX dx) (moveX dx) ;;
  r2 <- get ;;
  let dy := velocity_y (velocity (self r2)) * delta in
  perform (MoveY dy) (moveY dy).

Definition start (p : Player) : Run := {| self := p; steps := [] |}.

Definition runUpdate (delta : Q) (p : Player) : Run :=
  snd (runState (update delta) (start p)).
End Update.

(** Position of the first element satisfying [f]. *)
Fixpoint position (f : Step -> bool) (l : list Step) : option nat :=
  match l with
  | [] => None
  | s :: rest =>
      if f s then Some O
      else match position f rest with
           | None => None
           | Some n => Some (S n)
           end
  end.

Definition isGravity (s : Step) : bool :=
  match s with ApplyGravity => true | _ => false end.
Definition isMoveX (s : Step) : bool :=
  match s with MoveX _ => true | _ => false end.
Definition isMoveY (s : Step) : bool :=
  match s with MoveY _ => true | _ => false end.

(** Stand-ins for the undefined methods, for concrete runs: they apply the
    displacement and nothing else. *)
Definition shiftX (d : Q) (p : Player) : Player :=
  {| x := x p + d; y := y p; velocity := velocity p; grounded := grounded p |}.
Definition shiftY (d : Q) (p : Player) : Player :=
  {| x := x p; y := y p + d; velocity := velocity p; grounded := grounded p |}.

(** An entity at rest at the origin. *)
Definition atRest : Player :=
  {| x := 0; y := 0;
     velocity := {| velocity_x := 0; velocity_y := 0 |};
     grounded := true |}.


End Architecture.

(** ** The planned kinematic core

    The sources hold no code for the core: the architecture document gives
    its constants and the three statements of one update, nothing more.
    The gravity statement is taken from that update; every other definition
    of this module is modelled from the specification's component design
    (its sections 3 and 4), sentence by sentence.  The timers hold
    milliseconds and the tick receives [deltaSeconds], so the Δt by which a
    timer is decremented is the tick's Δt expressed in milliseconds. *)

Module Core.

Definition Qltb (a b : Q) : bool := negb (Qle_bool b a).

(** Modelled from the spec: MovementConfig, "immutable configuration
    struct holding all tunable constants"; the fields are those of the
    document's [PLAYER_CONFIG]. *)
Definition MovementConfig : Type := Architecture.MovementConstants.

(** Modelled from the spec: InputIntent, the per-tick snapshot "move-left,
    move-right, jump-held, jump-just-pressed, jump-just-released,
    down-held"; no source file declares it. *)
Record InputIntent : Type := {
  moveLeft : bool;
  moveRight : bool;
  jumpHeld : bool;
  jumpJustPressed : bool;
  jumpJustReleased : bool;
  downHeld : bool
}.

(** Modelled from the spec: KinematicBody (position, size, velocity,
    grounded, coyoteTimer, jumpBufferTimer); no source file declares it. *)
Record KinematicBody : Type := {
  x : Q;
  y : Q;
  width : Q;
  height : Q;
  vx : Q;
  vy : Q;
  grounded : bool;
  coyoteTimer : Q;
  jumpBufferTimer : Q
}.

(** Modelled from the spec: TileQuery, "a function from world coordinate
    to boolean solid/non-solid". *)
Definition TileQuery : Type := Q -> Q -> bool.

(** Modelled from the spec: the [axis] argument of [resolveAxis], X or Y. *)
Inductive Axis : Type := AxisX | AxisY.

(** Two bodies agree on every field, numbers compared as rationals. *)
Definition body_eq (a b : KinematicBody) : Prop :=
  x a == x b /\ y a == y b /\ width a == width b /\ height a == height b /\
  vx a == vx b /\ vy a == vy b /\ grounded a = grounded b /\
  coyoteTimer a == coyoteTimer b /\ jumpBufferTimer a == jumpBufferTimer b.

Definition set_vx (v : Q) (b : KinematicBody) : KinematicBody :=
  {| x := x b; y := y b; width := width b; height := height b;
     vx := v; vy := vy b; grounded := grounded b;
     coyoteTimer := coyoteTimer b; jumpBufferTimer := jumpBufferTimer b |}.

Definition set_vy (v : Q) (b : KinematicBody) : KinematicBody :=
  {| x := x b; y := y b; width := width b; height := height b;
     vx := vx b; vy := v; grounded := grounded b;
     coyoteTimer := coyoteTimer b; jumpBufferTimer := jumpBufferTimer b |}.

Definition set_timers (c j : Q) (b : KinematicBody) : KinematicBody :=
  {| x := x b; y := y b; width := width b; height := height b;
     vx := vx b; vy := vy b; grounded := grounded b;
     coyoteTimer := c; jumpBufferTimer := j |}.

(** *** JumpAssist *)

(** Modelled from the spec: the timers' "saturating (non-negative)
    decrement": "decremented by Δt, floored at 0". *)
Definition saturatingDecrement (timer dt : Q) : Q := Qmax 0 (timer - dt).

(** Modelled from the spec: the tick's Δt in the unit of the timers.  The
    timers are "remaining milliseconds" and COYOTE_TIME and JUMP_BUFFER are
    given in milliseconds, while [tick] receives [deltaSeconds]. *)
Definition milliseconds (deltaSeconds : Q) : Q := 1000 * deltaSeconds.

(** Modelled from the spec: JumpAssist's timer update.  "Coyote timer: set
    to COYOTE_TIME whenever grounded is true at the start of the tick;
    otherwise decremented by Δt, floored at 0.  Jump-buffer timer: set to
    JUMP_BUFFER whenever intent.jumpJustPressed is true this tick;
    otherwise decremented by Δt, floored at 0." *)
Definition updateTimers (config : MovementConfig) (wasGrounded : bool)
    (intent : InputIntent) (deltaSeconds : Q) (body : KinematicBody)
  : KinematicBody :=
  set_timers
    (if wasGrounded then Architecture.COYOTE_TIME config
     else saturatingDecrement (coyoteTimer body) (milliseconds deltaSeconds))
    (if jumpJustPressed intent then Architecture.JUMP_BUFFER config
     else saturatingDecrement (jumpBufferTimer body)
            (milliseconds deltaSeconds))
    body.

(** Modelled from the spec: JumpAssist's "canJump() -> boolean: true iff
    grounded OR coyoteTimer > 0". *)
Definition canJump (body : KinematicBody) : bool :=
  grounded body || Qltb 0 (coyoteTimer body).

(** *** MotionIntegrator *)

(** Modelled from the spec: the integrator's horizontal target, "±MOVE_SPEED
    based on left/right intent (right takes precedence if both held, or
    zero if neither)". *)
Definition targetVelocity (config : MovementConfig) (intent : InputIntent) : Q :=
  if moveRight intent then Architecture.MOVE_SPEED config
  else if moveLeft intent then - Architecture.MOVE_SPEED config
  else 0.

(** Modelled from the spec: the integrator's "Approach", "a clamped linear
    step: it must not overshoot the target (if the step would cross the
    target, snap exactly to target)". *)
Definition approach (current target step : Q) : Q :=
  if Qltb current target then Qmin (current + step) target
  else Qmax (current - step) target.

(** Modelled from the spec: the integrator's horizontal rule, "velocity.x
    moves toward target at ACCELERATION·Δt when target ≠ 0, else toward
    zero at FRICTION·Δt". *)
Definition integrateHorizontal (config : MovementConfig) (intent : InputIntent)
    (dt : Q) (body : KinematicBody) : KinematicBody :=
  let target := targetVelocity config intent in
  set_vx (if Qeq_bool target 0
          then approach (vx body) 0 (Architecture.FRICTION config * dt)
          else approach (vx body) target (Architecture.ACCELERATION config * dt))
         body.

(** The gravity statement of the document's update,
    [this.velocity.y += GRAVITY * delta], on a body of the core. *)
Definition applyGravity (config : MovementConfig) (dt : Q)
    (body : KinematicBody) : KinematicBody :=
  set_vy (vy body + Architecture.GRAVITY config * dt) body.

(** Modelled from the spec: the clamp the specification puts after the
    gravity statement, "then clamp to ≤ MAX_FALL_SPEED".  The sources
    declare MAX_FALL_SPEED and never read it. *)
Definition clampFallSpeed (config : MovementConfig) (body : KinematicBody)
  : KinematicBody :=
  set_vy (Qmin (vy body) (Architecture.MAX_FALL_SPEED config)) body.

(** Modelled from the spec: the integrator's vertical rule, the gravity
    statement followed by the clamp. *)
Definition integrateVertical (config : MovementConfig) (dt : Q)
    (body : KinematicBody) : KinematicBody :=
  clampFallSpeed config (applyGravity config dt body).

(** Modelled from the spec: what a triggered jump does, "velocity.y =
    JUMP_VELOCITY (a fixed negative impulse), grounded := false, consume
    the jump (reset both coyote and buffer timers to zero)". *)
Definition jump (config : MovementConfig) (body : KinematicBody) : KinematicBody :=
  {| x := x body; y := y body; width := width body; height := height body;
     vx := vx body; vy := Architecture.JUMP_VELOCITY config; grounded := false;
     coyoteTimer := 0; jumpBufferTimer := 0 |}.

(** Modelled from the spec: the integrator's jump trigger, "if
    intent.jumpJustPressed and JumpAssist says a jump is currently
    allowed". *)
Definition jumpTrigger (config : MovementConfig) (intent : InputIntent)
    (body : KinematicBody) : KinematicBody :=
  if jumpJustPressed intent && canJump body then jump config body else body.

(** Modelled from the spec: the integrator's variable jump height, "if
    intent.jumpJustReleased and velocity.y < 0: velocity.y *= 0.5". *)
Definition variableHeight (intent : InputIntent) (body : KinematicBody)
  : KinematicBody :=
  if jumpJustReleased intent && Qltb (vy body) 0
  then set_vy (vy body * (1 # 2)) body
  else body.

(** Modelled from the spec: MotionIntegrator's [integrate(body, intent,
    config, deltaSeconds)], its four rules in the order the specification
    lists them. *)
Definition integrate (body : KinematicBody) (intent : InputIntent)
    (config : MovementConfig) (deltaSeconds : Q) : KinematicBody :=
  variableHeight intent
    (jumpTrigger config intent
       (integrateVertical config deltaSeconds
          (integrateHorizontal config intent deltaSeconds body))).

(** *** CollisionResolver *)

(** Modelled from the spec: what [resolveAxis] returns, "(newPosition,
    newVelocity, groundedFlag)", position and velocity being those of the
    resolved axis. *)
Record Resolution : Type := {
  newPosition : Q;
  newVelocity : Q;
  groundedFlag : bool
}.

(** Modelled from the spec: the resolver's work on a non-zero
    displacement.  Its sampling and snapping are not fixed by the sources
    (tile size, margin and snap target are left open), so the controller
    takes it as a parameter. *)
Definition CollisionResolver : Type :=
  KinematicBody -> TileQuery -> Axis -> Q -> Resolution.

(** Modelled from the spec: the controller taking over what [resolveAxis]
    returned: the position and the velocity of the resolved axis and the
    grounded flag; the other axis, the size and the timers stay. *)
Definition applyResolution (axis : Axis) (r : Resolution) (b : KinematicBody)
  : KinematicBody :=
  match axis with
  | AxisX =>
      {| x := newPosition r; y := y b; width := width b; height := height b;
         vx := newVelocity r; vy := vy b; grounded := groundedFlag r;
         coyoteTimer := coyoteTimer b; jumpBufferTimer := jumpBufferTimer b |}
  | AxisY =>
      {| x := x b; y := newPosition r; width := width b; height := height b;
         vx := vx b; vy := newVelocity r; grounded := groundedFlag r;
         coyoteTimer := coyoteTimer b; jumpBufferTimer := jumpBufferTimer b |}
  end.

(** Modelled from the spec: [resolveAxis(body, tileQuery, axis,
    displacement)]; "Zero displacement on an axis performs no query and is
    a no-op". *)
Definition resolveAxis (resolve : CollisionResolver) (body : KinematicBody)
    (tileQuery : TileQuery) (axis : Axis) (displacement : Q) : KinematicBody :=
  if Qeq_bool displacement 0 then body
  else applyResolution axis (resolve body tileQuery axis displacement) body.


(** *** MovementController *)

(** Modelled from the spec: steps 1 to 3 of [tick], "Record wasGrounded",
    "Update JumpAssist timers from wasGrounded and intent", "Run
    MotionIntegrator to get proposed velocity". *)
Definition proposed (body : KinematicBody) (intent : InputIntent)
    (config : MovementConfig) (deltaSeconds : Q) : KinematicBody :=
  integrate (updateTimers config (grounded body) intent deltaSeconds body)
            intent config deltaSeconds.

(** Modelled from the spec: steps 4 and 5 of [tick], "Resolve X-axis
    displacement = velocity.x · Δt", then "Resolve Y-axis displacement =
    velocity.y · Δt". *)
Definition resolved (resolve : CollisionResolver) (body : KinematicBody)
    (intent : InputIntent) (tileQuery : TileQuery) (config : MovementConfig)
    (deltaSeconds : Q) : KinematicBody :=
  let b := proposed body intent config deltaSeconds in
  let afterX := resolveAxis resolve b tileQuery AxisX (vx b * deltaSeconds) in
  resolveAxis resolve afterX tileQuery AxisY (vy afterX * deltaSeconds).

(** Modelled from the spec: step 6 of [tick], the buffered-jump
    reconciliation: "if grounded becomes true (landing) and
    jumpBufferTimer > 0, a jump is triggered immediately that same tick as
    if freshly pressed"; "override velocity.y = JUMP_VELOCITY and re-run
    nothing further this tick". *)
Definition reconcile (config : MovementConfig) (wasGrounded : bool)
    (body : KinematicBody) : KinematicBody :=
  if negb wasGrounded && grounded body && Qltb 0 (jumpBufferTimer body)
  then jump config body
  else body.

(** Modelled from the spec: MovementController's [tick(body, intent,
    tileQuery, config, deltaSeconds)].  "Zero Δt ⇒ no state change";
    otherwise the six steps of its sequence. *)
Definition tick (resolve : CollisionResolver) (body : KinematicBody)
    (intent : InputIntent) (tileQuery : TileQuery) (config : MovementConfig)
    (deltaSeconds : Q) : KinematicBody :=
  if Qeq_bool deltaSeconds 0 then body
  else reconcile config (grounded body)
         (resolved resolve body intent tileQuery config deltaSeconds).


(** *** Runs of ticks *)

Section Runs.
Variable resolve : CollisionResolver.
Variable tileQuery : TileQuery.
Variable config : MovementConfig.

(** One tick per element, each with its intent and its Δt. *)
Fixpoint runTicks (inputs : list (InputIntent * Q)) (body : KinematicBody)
  : KinematicBody :=
  match inputs with
  | [] => body
  | (intent, dt) :: rest =>
      runTicks rest (tick resolve body intent tileQuery config dt)
  end.


End Runs.


(** *** Concrete inputs *)

Definition noIntent : InputIntent :=
  {| moveLeft := false; moveRight := false; jumpHeld := false;
     jumpJustPressed := false; jumpJustReleased := false; downHeld := false |}.


Definition releaseJump : InputIntent :=
  {| moveLeft := false; moveRight := false; jumpHeld := false;
     jumpJustPressed := false; jumpJustReleased := true; downHeld := false |}.


(** The same body rising at 300 units per second. *)
Definition rising : KinematicBody :=
  {| x := 0; y := 32; width := 12; height := 14; vx := 0; vy := -300;
     grounded := false; coyoteTimer := 0; jumpBufferTimer := 0 |}.





End Core.

(* ===================================================================== *)
(** * Part II: theorems *)
(* ===================================================================== *)

(** ** The scaffold: [main.ts] and [GameScene] *)

Section Scaffold.
Import Phaser GameScene.

Lemma nth_error_snoc {A : Type} (l : list A) (a : A) :
  nth_error (l ++ [a]) (List.length l) = Some a.
Proof.
  induction l as [|h t IH]; simpl; [reflexivity | exact IH].
Qed.

Lemma replace_nth_snoc {A : Type} (l : list A) (a b : A) :
  replace_nth (List.length l) b (l ++ [a]) = l ++ [b].
Proof.
  induction l as [|h t IH]; simpl; [reflexivity | now rewrite IH].
Qed.

Lemma exec_bind {A B : Type} (m : state World A) (f : A -> state World B) w :
  exec (bind m f) w = exec (f (fst (runState m w))) (snd (runState m w)).
Proof.
  unfold exec. simpl. destruct (runState m w); reflexivity.
Qed.

Lemma exec_create w :
  exec create w =
  {| this := {| key := key (this w);
                displayList := displayList (this w) ++ [title; prompt];
                keyboard := match keyboard (this w) with
                            | None => None
                            | Some ls => Some (ls ++ [spaceListener])
                            end |};
     console := console w |}.
Proof.
  unfold create, exec. cbn.
  rewrite nth_error_snoc. cbn.
  rewrite replace_nth_snoc. cbn.
  rewrite nth_error_snoc. cbn.
  rewrite replace_nth_snoc. cbn.
  rewrite <- app_assoc. cbn.
  destruct w as [[k dl [ls|]] c]; reflexivity.
Qed.

Lemma exec_call cb w :
  exec (call cb) w =
  {| this := this w; console := console w ++ ["Game starting..."%string] |}.
Proof. destruct cb; reflexivity. Qed.

(** Emitting an event touches the console only: one line per listener of
    that event. *)
Lemma exec_emit name ls w :
  exec (emit name ls) w =
  {| this := this w;
     console := console w ++
                repeat "Game starting..."%string (listening name ls) |}.
Proof.
  revert w. induction ls as [|l rest IH]; intro w.
  - cbn. rewrite app_nil_r. destruct w; reflexivity.
  - cbn [emit listening]. rewrite exec_bind.
    destruct (String.eqb (event l) name).
    + fold (exec (call (callback l)) w). rewrite exec_call, IH. cbn.
      rewrite <- app_assoc. reflexivity.
    + rewrite IH. reflexivity.
Qed.

Lemma logged_cons s e rest :
  logged s (e :: rest) = (logged s [e] + logged s rest)%nat.
Proof. destruct e; cbn [logged]; lia. Qed.

Lemma exec_dispatch e w :
  exec (dispatch e) w =
  {| this := this w;
     console := console w ++
                repeat "Game starting..."%string (logged (this w) [e]) |}.
Proof.
  destruct e as [name|t d]; cbn [logged].
  - unfold dispatch. rewrite exec_bind. cbn [runState get fst snd].
    change (fst (runState get w)) with w.
    change (snd (runState get w)) with w.
    unfold listenerCalls. destruct (keyboard (this w)) as [ls|].
    + rewrite exec_emit, Nat.add_0_r. reflexivity.
    + cbn. rewrite app_nil_r. destruct w; reflexivity.
  - cbn. rewrite app_nil_r. destruct w; reflexivity.
Qed.

Lemma exec_run es w :
  exec (run es) w =
  {| this := this w;
     console := console w ++
                repeat "Game starting..."%string (logged (this w) es) |}.
Proof.
  revert w. induction es as [|e rest IH]; intro w.
  - cbn. rewrite app_nil_r. destruct w; reflexivity.
  - cbn [run]. rewrite exec_bind.
    fold (exec (dispatch e) w). rewrite exec_dispatch, IH.
    cbn [this console]. rewrite (logged_cons (this w) e rest).
    rewrite <- app_assoc, <- repeat_app. reflexivity.
Qed.

(** The architecture document's configuration plans three scenes where
    main.ts registers one; it has no physics field either. *)
Example architecture_config_no_physics :
  scene Architecture.config = [BootScene; MenuScene; Phaser.GameScene] /\
  physics Architecture.config = None /\
  enabledPhysics Architecture.config = None.
Proof. repeat split. Qed.

(** C10: the game configuration built in main.ts registers exactly one
    scene, GameScene, sets width 1280, height 720 and pixelArt true, and
    has no physics field, so the engine starts no built-in physics system
    (neither Arcade nor Matter). *)
Theorem main_config_single_scene_no_physics :
  scene Main.config = [Phaser.GameScene] /\
  List.length (scene Main.config) = 1%nat /\
  width Main.config = Some 1280%Z /\
  height Main.config = Some 720%Z /\
  pixelArt Main.config = Some true /\
  physics Main.config = None /\
  enabledPhysics Main.config = None.
Proof. repeat split. Qed.

(** The guard of the registration: were the keyboard plugin null, the
    optional call would register nothing and [create] would only add the
    two texts. *)
Lemma create_without_keyboard_registers_nothing :
  keyboard (this (exec create worldWithoutKeyboard)) = None /\
  listenerCount (this (exec create worldWithoutKeyboard)) = 0%nat /\
  displayList (this (exec create worldWithoutKeyboard)) = [title; prompt].
Proof. repeat split. Qed.

(** On a freshly constructed scene with a keyboard plugin, [create] leaves
    the two texts and the one listener. *)
Example create_on_fresh_scene :
  exec create worldWithKeyboard =
  {| this := {| key := "GameScene"%string;
                displayList := [title; prompt];
                keyboard := Some [spaceListener] |};
     console := [] |}.
Proof. reflexivity. Qed.

(** Pressing SPACE twice between frames logs twice and changes nothing
    else. *)
Example space_twice_logs_twice :
  exec (run [Emit "keydown-SPACE"%string; Frame 0 (50 # 3);
             Emit "keydown-SPACE"%string; Emit "keydown-ENTER"%string])
       (exec create worldWithKeyboard) =
  {| this := this (exec create worldWithKeyboard);
     console := ["Game starting..."%string; "Game starting..."%string] |}.
Proof. reflexivity. Qed.

(** C1: GameScene holds placeholder behaviour only.  On every scene with
    its keyboard plugin (the engine installs one unless the game
    configuration turns keyboard input off, and main.ts does not), [create]
    appends exactly two static text objects to the display list and
    registers exactly one listener, for keydown-SPACE, after the listeners
    already there; it changes nothing else.  The listener's body is a
    single console.log call, [preload] and [update] do nothing, and the
    game configuration starts no physics system. *)
Theorem create_is_placeholder_only :
  forall (w : World) (ls : list Listener),
    keyboard (this w) = Some ls ->
    displayList (this (exec create w)) =
      displayList (this w) ++ [title; prompt] /\
    List.length (displayList (this (exec create w))) =
      (List.length (displayList (this w)) + 2)%nat /\
    keyboard (this (exec create w)) = Some (ls ++ [spaceListener]) /\
    listenerCount (this (exec create w)) = S (listenerCount (this w)) /\
    listening "keydown-SPACE"%string (ls ++ [spaceListener]) =
      S (listening "keydown-SPACE"%string ls) /\
    key (this (exec create w)) = key (this w) /\
    console (exec create w) = console w /\
    (forall v : World,
        exec (call (callback spaceListener)) v =
        exec (console_log "Game starting..."%string) v) /\
    (forall v : World, exec preload v = v) /\
    (forall (time delta : Q) (v : World), exec (update time delta) v = v) /\
    enabledPhysics Main.config = None.
Proof.
  intros w ls Hk. rewrite exec_create.
  cbn [this displayList keyboard key console]. rewrite Hk.
  split; [reflexivity|]. split.
  { rewrite length_app. reflexivity. }
  split; [reflexivity|]. split.
  { unfold listenerCount. cbn [keyboard]. rewrite Hk, length_app.
    cbn [List.length]. lia. }
  split.
  { clear Hk. induction ls as [|l rest IH]; [reflexivity|].
    cbn [listening app]. rewrite IH.
    destruct (String.eqb (event l) "keydown-SPACE"); lia. }
  split; [reflexivity|]. split; [reflexivity|]. split; [|split; [|split]].
  - intro v. reflexivity.
  - intro v. destruct v; reflexivity.
  - intros t d v. destruct v; reflexivity.
  - reflexivity.
Qed.

(** The scene as the engine constructs it for main.ts: a keyboard plugin
    with no listener yet. *)
Lemma create_is_placeholder_only_witness :
  displayList (this (exec create worldWithKeyboard)) = [title; prompt] /\
  keyboard (this (exec create worldWithKeyboard)) = Some [spaceListener] /\
  listenerCount (this (exec create worldWithKeyboard)) = 1%nat.
Proof.
  destruct (create_is_placeholder_only worldWithKeyboard [] eq_refl)
    as (Hd & _ & Hk & Hc & _).
  split; [exact Hd|]. split; [exact Hk | exact Hc].
Defined.

(** C9: once [create] has run, whatever reaches the scene from outside
    leaves the scene as it is.  For every sequence of emitted keyboard
    events and frame callbacks the scene is unchanged and the console only
    gains copies of the handler's log line, one per call of the handler;
    the handler itself appends that one line and touches nothing else; and
    [update] changes nothing, whatever its time and delta. *)
Theorem operations_after_create_leave_scene_unchanged :
  forall (w0 : World) (es : list Event),
    this (exec (run es) (exec create w0)) = this (exec create w0) /\
    console (exec (run es) (exec create w0)) =
      console (exec create w0) ++
      repeat "Game starting..."%string (logged (this (exec create w0)) es) /\
    exec (call SpaceCallback) (exec create w0) =
      {| this := this (exec create w0);
         console := console (exec create w0) ++ ["Game starting..."%string] |} /\
    (forall time delta : Q,
        exec (update time delta) (exec create w0) = exec create w0).
Proof.
  intros w0 es. rewrite exec_run. cbn [this console].
  split; [reflexivity|]. split; [reflexivity|]. split.
  - apply exec_call.
  - intros t d. destruct (exec create w0); reflexivity.
Qed.

End Scaffold.

(** ** The architecture document's update *)

Section MovementOrder.
Import Architecture.

Variable constants : MovementConstants.
Variables moveX moveY : Q -> Player -> Player.

(** One run of [update], statement by statement. *)
Lemma runUpdate_steps (delta : Q) (p : Player) :
  runUpdate constants moveX moveY delta p =
  {| self :=
       moveY
         (velocity_y
            (velocity
               (moveX
                  (velocity_x
                     (velocity (add_velocity_y (GRAVITY constants * delta) p))
                   * delta)
                  (add_velocity_y (GRAVITY constants * delta) p)))
          * delta)
         (moveX
            (velocity_x
               (velocity (add_velocity_y (GRAVITY constants * delta) p))
             * delta)
            (add_velocity_y (GRAVITY constants * delta) p));
     steps :=
       [ApplyGravity;
        MoveX (velocity_x
                 (velocity (add_velocity_y (GRAVITY constants * delta) p))
               * delta);
        MoveY (velocity_y
                 (velocity
                    (moveX
                       (velocity_x
                          (velocity
                             (add_velocity_y (GRAVITY constants * delta) p))
                        * delta)
                       (add_velocity_y (GRAVITY constants * delta) p)))
               * delta)] |}.
Proof. reflexivity. Qed.

End MovementOrder.

(** A fall from rest over one sixtieth of a second, the two move methods
    only applying their displacement: gravity gives 20 units per second,
    which move Y turns into a third of a unit. *)
Example update_from_rest :
  Architecture.runUpdate Architecture.PLAYER_CONFIG
    Architecture.shiftX Architecture.shiftY (1 # 60) Architecture.atRest =
  {| Architecture.self :=
       Architecture.shiftY ((0 + 1200 * (1 # 60)) * (1 # 60))
         (Architecture.shiftX (0 * (1 # 60))
            (Architecture.add_velocity_y (1200 * (1 # 60))
               Architecture.atRest));
     Architecture.steps :=
       [Architecture.ApplyGravity;
        Architecture.MoveX (0 * (1 # 60));
        Architecture.MoveY ((0 + 1200 * (1 # 60)) * (1 # 60))] |}.
Proof. reflexivity. Qed.

(** The document's update only adds gravity: over a whole second from rest
    it hands move Y a vertical velocity of 1200, twice the MAX_FALL_SPEED
    the constants declare. *)
Example update_adds_gravity_unclamped :
  Architecture.velocity_y
    (Architecture.velocity
       (Architecture.self
          (Architecture.runUpdate Architecture.PLAYER_CONFIG
             Architecture.shiftX Architecture.shiftY 1 Architecture.atRest)))
    == 1200 /\
  Architecture.MAX_FALL_SPEED Architecture.PLAYER_CONFIG == 600.
Proof. split; reflexivity. Qed.

(** C3: every update applies gravity to the velocity first, then resolves
    the X axis, then the Y axis, whatever the entity, the time step, the
    constants and the two move methods are: the executed steps are exactly
    gravity, move X, move Y, in that order; the X move starts from the
    entity with gravity already added to its vertical velocity, and the Y
    move starts from the entity the X move returned. *)
Theorem update_resolves_x_before_y_after_gravity :
  forall (constants : Architecture.MovementConstants)
         (moveX moveY : Q -> Architecture.Player -> Architecture.Player)
         (delta : Q) (p : Architecture.Player),
    let r := Architecture.runUpdate constants moveX moveY delta p in
    let p1 :=
      Architecture.add_velocity_y (Architecture.GRAVITY constants * delta) p in
    let dx := Architecture.velocity_x (Architecture.velocity p1) * delta in
    let p2 := moveX dx p1 in
    let dy := Architecture.velocity_y (Architecture.velocity p2) * delta in
    Architecture.steps r =
      [Architecture.ApplyGravity; Architecture.MoveX dx; Architecture.MoveY dy] /\
    Architecture.self r = moveY dy p2 /\
    Architecture.velocity_y (Architecture.velocity p1) =
      Architecture.velocity_y (Architecture.velocity p)
      + Architecture.GRAVITY constants * delta /\
    Architecture.position Architecture.isGravity (Architecture.steps r) = Some 0%nat /\
    Architecture.position Architecture.isMoveX (Architecture.steps r) = Some 1%nat /\
    Architecture.position Architecture.isMoveY (Architecture.steps r) = Some 2%nat.
Proof.
  intros constants moveX moveY delta p r p1 dx p2 dy.
  subst r. rewrite runUpdate_steps. cbn [Architecture.steps Architecture.self].
  split; [reflexivity|]. split; [reflexivity|]. split; [reflexivity|].
  split; [reflexivity|]. split; reflexivity.
Qed.


(** ** The planned core: integrator and jump assist *)

Section Integrator.
Import Core.

Lemma Qltb_lt (a b : Q) : Qltb a b = true <-> a < b.
Proof.
  unfold Qltb. rewrite negb_true_iff. split; intro H.
  - apply Qnot_le_lt. intro Hle. apply Qle_bool_iff in Hle. congruence.
  - destruct (Qle_bool b a) eqn:E; [|reflexivity].
    apply Qle_bool_iff in E. lra.
Qed.

Lemma Qltb_ge (a b : Q) : Qltb a b = false <-> b <= a.
Proof.
  unfold Qltb. rewrite negb_false_iff. apply Qle_bool_iff.
Qed.

Lemma Qmax_cases (a b : Q) :
  (a <= b /\ Qmax a b == b) \/ (b <= a /\ Qmax a b == a).
Proof.
  destruct (Q.max_spec a b) as [[H1 H2]|[H1 H2]]; [left | right]; split;
    try assumption; lra.
Qed.

Lemma Qmin_cases (a b : Q) :
  (a <= b /\ Qmin a b == a) \/ (b <= a /\ Qmin a b == b).
Proof.
  destruct (Q.min_spec a b) as [[H1 H2]|[H1 H2]]; [left | right]; split;
    try assumption; lra.
Qed.

End Integrator.

(** Case analysis on every [Qmax] and [Qmin] in sight, each replaced by a
    variable with its defining inequalities, for [lra]. *)
Ltac minmax_cases :=
  repeat match goal with
    | |- context [Qmax ?a ?b] =>
        let m := fresh "m" in
        let Hm := fresh "Hm" in
        destruct (Qmax_cases a b) as [Hm|Hm];
        set (m := Qmax a b) in *; clearbody m
    | |- context [Qmin ?a ?b] =>
        let m := fresh "m" in
        let Hm := fresh "Hm" in
        destruct (Qmin_cases a b) as [Hm|Hm];
        set (m := Qmin a b) in *; clearbody m
    | H : context [Qmax ?a ?b] |- _ =>
        let m := fresh "m" in
        let Hm := fresh "Hm" in
        destruct (Qmax_cases a b) as [Hm|Hm];
        set (m := Qmax a b) in *; clearbody m
    | H : context [Qmin ?a ?b] |- _ =>
        let m := fresh "m" in
        let Hm := fresh "Hm" in
        destruct (Qmin_cases a b) as [Hm|Hm];
        set (m := Qmin a b) in *; clearbody m
    end.

Section IntegratorRules.
Import Core.

Lemma vy_variableHeight (intent : InputIntent) (body : KinematicBody) :
  vy (variableHeight intent body) =
  if jumpJustReleased intent && Qltb (vy body) 0
  then vy body * (1 # 2) else vy body.
Proof.
  unfold variableHeight.
  destruct (jumpJustReleased intent && Qltb (vy body) 0); reflexivity.
Qed.

(** C7: when the jump is released while the body rises (velocity.y < 0) the
    integrator's variable-height rule multiplies velocity.y by exactly one
    half, which strictly reduces its magnitude; when velocity.y is at least
    0 a release changes nothing; and the integrator applies this rule as its
    last step. *)
Theorem jump_release_halves_rising_velocity :
  forall (intent : InputIntent) (body : KinematicBody),
    (jumpJustReleased intent = true -> vy body < 0 ->
       vy (variableHeight intent body) = vy body * (1 # 2) /\
       Qabs (vy (variableHeight intent body)) < Qabs (vy body)) /\
    (0 <= vy body -> variableHeight intent body = body) /\
    (forall (config : MovementConfig) (dt : Q),
        integrate body intent config dt =
        variableHeight intent
          (jumpTrigger config intent
             (integrateVertical config dt
                (integrateHorizontal config intent dt body)))).
Proof.
  intros intent body. split; [|split].
  - intros Hrel Hneg.
    assert (E : Qltb (vy body) 0 = true) by (apply Qltb_lt; exact Hneg).
    rewrite vy_variableHeight, Hrel, E. cbn [andb]. split; [reflexivity|].
    rewrite !Qabs_neg by lra. lra.
  - intro Hpos. unfold variableHeight.
    assert (E : Qltb (vy body) 0 = false) by (apply Qltb_ge; exact Hpos).
    rewrite E, andb_false_r. reflexivity.
  - intros config dt. reflexivity.
Qed.

(** A release at 300 units per second upwards leaves 150. *)
Lemma jump_release_halves_rising_velocity_witness :
  vy (variableHeight releaseJump rising) = vy rising * (1 # 2) /\
  Qabs (vy (variableHeight releaseJump rising)) < Qabs (vy rising).
Proof.
  apply (proj1 (jump_release_halves_rising_velocity releaseJump rising)).
  - reflexivity.
  - reflexivity.
Defined.

End IntegratorRules.

(** ** The planned core: the controller *)

Section Controller.
Import Core.

Variable resolve : CollisionResolver.
Variable tileQuery : TileQuery.
Variable config : MovementConfig.






(** A tick with Δt = 0 returns the body it was given. *)
Lemma tick_zero (body : KinematicBody) (intent : InputIntent) (dt : Q) :
  dt == 0 ->
  tick resolve body intent tileQuery config dt = body.
Proof.
  intro H. unfold tick. rewrite (Qeq_eq_bool _ _ H). reflexivity.
Qed.


End Controller.

(** ** The clamped approach *)

Section Approach.
Import Core.

(** The approach never leaves the interval between where it starts and its
    target, so it never overshoots. *)
Lemma approach_between (current target step : Q) :
  0 <= step ->
  (current <= target ->
   current <= approach current target step <= target) /\
  (target <= current ->
   target <= approach current target step <= current).
Proof.
  intro Hs. unfold approach.
  destruct (Qltb current target) eqn:E;
    [apply Qltb_lt in E | apply Qltb_ge in E];
    split; intro H; minmax_cases; lra.
Qed.

(** A step that reaches or would cross the target lands exactly on it. *)
Lemma approach_snaps (current target step : Q) :
  Qabs (target - current) <= step ->
  approach current target step == target.
Proof.
  intro Hs. unfold approach.
  destruct (Qltb current target) eqn:E;
    [apply Qltb_lt in E | apply Qltb_ge in E].
  - rewrite Qabs_pos in Hs by lra. minmax_cases; lra.
  - rewrite Qabs_neg in Hs by lra. minmax_cases; lra.
Qed.

(** A step that falls short of the target is taken in full. *)
Lemma approach_steps (current target step : Q) :
  0 <= step -> step <= Qabs (target - current) ->
  Qabs (approach current target step - current) == step.
Proof.
  intros H0 Hs. unfold approach.
  destruct (Qltb current target) eqn:E;
    [apply Qltb_lt in E | apply Qltb_ge in E].
  - rewrite Qabs_pos in Hs by lra.
    destruct (Qmin_cases (current + step) target) as [[H1 H2]|[H1 H2]];
      rewrite H2; rewrite Qabs_pos; lra.
  - rewrite Qabs_neg in Hs by lra.
    destruct (Qmax_cases (current - step) target) as [[H1 H2]|[H1 H2]];
      rewrite H2; rewrite Qabs_neg; lra.
Qed.

(** With no horizontal intent, friction brings velocity.x towards 0 without
    ever changing its sign or increasing its magnitude. *)
Lemma friction_never_crosses_zero (config : MovementConfig) (dt : Q)
    (body : KinematicBody) :
  0 <= Architecture.FRICTION config * dt ->
  (0 <= vx body ->
   0 <= vx (integrateHorizontal config noIntent dt body) <= vx body) /\
  (vx body <= 0 ->
   vx body <= vx (integrateHorizontal config noIntent dt body) <= 0).
Proof.
  intro Hs. unfold integrateHorizontal. cbn [vx set_vx].
  change (targetVelocity config noIntent) with 0.
  change (Qeq_bool 0 0) with true. cbv iota.
  destruct (approach_between (vx body) 0 (Architecture.FRICTION config * dt) Hs)
    as [Hup Hdown].
  split; intro H; [apply Hdown | apply Hup]; exact H.
Qed.

End Approach.

Section ZeroDelta.
Import Core.

Lemma runTicks_zero_dt (resolve : CollisionResolver) (tileQuery : TileQuery)
    (config : MovementConfig) (intents : list InputIntent)
    (body : KinematicBody) :
  runTicks resolve tileQuery config
           (map (fun intent => (intent, 0)) intents) body = body.
Proof.
  induction intents as [|intent rest IH]; cbn [map runTicks]; [reflexivity|].
  rewrite tick_zero by reflexivity. exact IH.
Qed.

(** C6: for every body state, input intent, tile map, configuration and
    resolver, a tick with Δt = 0 returns the body with every field as it
    was (position, size, velocity, grounded, both timers), and so does any
    number of such ticks in a row; no fault can be raised, the tick being a
    total function.  The document's update agrees as far as it goes: with
    delta = 0 its gravity statement leaves velocity.y at its value and both
    move methods are handed a displacement of 0. *)
Theorem tick_zero_dt_changes_nothing :
  forall (resolve : CollisionResolver) (body : KinematicBody)
         (intent : InputIntent) (tileQuery : TileQuery)
         (config : MovementConfig),
    tick resolve body intent tileQuery config 0 = body /\
    body_eq (tick resolve body intent tileQuery config 0) body /\
    (forall intents : list InputIntent,
        runTicks resolve tileQuery config
                 (map (fun i => (i, 0)) intents) body = body) /\
    (forall (constants : Architecture.MovementConstants)
            (moveX moveY : Q -> Architecture.Player -> Architecture.Player)
            (p : Architecture.Player),
        exists dx dy : Q,
          Architecture.steps (Architecture.runUpdate constants moveX moveY 0 p)
            = [Architecture.ApplyGravity; Architecture.MoveX dx;
               Architecture.MoveY dy] /\
          dx == 0 /\ dy == 0 /\
          Architecture.velocity_y
            (Architecture.velocity
               (Architecture.add_velocity_y
                  (Architecture.GRAVITY constants * 0) p))
            == Architecture.velocity_y (Architecture.velocity p)).
Proof.
  intros resolve body intent tileQuery config.
  assert (H0 : tick resolve body intent tileQuery config 0 = body)
    by (apply tick_zero; reflexivity).
  split; [exact H0|]. split; [|split].
  - rewrite H0. unfold body_eq. repeat split; reflexivity.
  - intro intents. apply runTicks_zero_dt.
  - intros constants moveX moveY p.
    rewrite runUpdate_steps. cbn [Architecture.steps].
    eexists. eexists. split; [reflexivity|].
    cbn [Architecture.velocity Architecture.velocity_y
         Architecture.add_velocity_y].
    repeat split; ring.
Qed.

End ZeroDelta.

Section CoyoteTime.
Import Core.

Variable resolve : CollisionResolver.
Variable tileQuery : TileQuery.
Variable config : MovementConfig.





End CoyoteTime.

Section CoyoteClaim.
Import Core.



End CoyoteClaim.


(** ** More on [GameScene]: repeated creation and what the console shows *)

Section SceneLifecycle.
Import Phaser GameScene.

Lemma listening_app name ls1 ls2 :
  listening name (ls1 ++ ls2) = (listening name ls1 + listening name ls2)%nat.
Proof.
  induction ls1 as [|l rest IH]; cbn [listening app]; [reflexivity|].
  rewrite IH. lia.
Qed.

Lemma listening_space_repeat n :
  listening "keydown-SPACE"%string (repeat spaceListener n) = n.
Proof.
  induction n as [|k IH]; cbn [repeat listening]; [reflexivity|].
  rewrite IH. reflexivity.
Qed.

Lemma exec_createTimes n :
  forall w : World,
    exec (createTimes n) w =
    {| this := {| key := key (this w);
                  displayList := displayList (this w) ++ textPairs n;
                  keyboard := match keyboard (this w) with
                              | None => None
                              | Some ls => Some (ls ++ repeat spaceListener n)
                              end |};
       console := console w |}.
Proof.
  induction n as [|k IH]; intro w.
  - cbn. rewrite app_nil_r.
    destruct w as [[k dl [ls|]] c]; cbn; rewrite ?app_nil_r; reflexivity.
  - cbn [createTimes]. rewrite exec_bind.
    fold (exec create w). rewrite IH, exec_create.
    cbn [this key displayList keyboard console textPairs repeat].
    rewrite <- app_assoc. cbn [app].
    destruct (keyboard (this w)) as [ls|]; [|reflexivity].
    rewrite <- app_assoc. reflexivity.
Qed.

(** X1: [create] is not idempotent: every run on the same scene appends another
    pair of texts and, with a keyboard plugin, another listener, leaving
    what was there in place; after [n] runs one emission of keydown-SPACE
    logs once for every listener that was there before and [n] times
    more. *)
Theorem create_runs_accumulate :
  forall (n : nat) (w : World),
    displayList (this (exec (createTimes n) w)) =
      displayList (this w) ++ textPairs n /\
    List.length (displayList (this (exec (createTimes n) w))) =
      (List.length (displayList (this w)) + 2 * n)%nat /\
    listenerCount (this (exec (createTimes n) w)) =
      match keyboard (this w) with
      | None => 0%nat
      | Some ls => (List.length ls + n)%nat
      end /\
    console (exec (dispatch (Emit "keydown-SPACE"%string))
                  (exec (createTimes n) w)) =
      console w ++
      repeat "Game starting..."%string
        match keyboard (this w) with
        | None => 0%nat
        | Some ls => (listening "keydown-SPACE"%string ls + n)%nat
        end.
Proof.
  intros n w. rewrite exec_dispatch, exec_createTimes.
  cbn [this displayList keyboard console logged listenerCalls].
  split; [reflexivity|]. split; [|split].
  - rewrite length_app. f_equal.
    induction n as [|k IH]; cbn [textPairs List.length]; lia.
  - unfold listenerCount. cbn [keyboard].
    destruct (keyboard (this w)) as [ls|]; [|reflexivity].
    rewrite length_app, repeat_length. reflexivity.
  - destruct (keyboard (this w)) as [ls|]; cbn [listenerCalls keyboard];
      [|reflexivity].
    rewrite listening_app, listening_space_repeat, Nat.add_0_r. reflexivity.
Qed.

Lemma logged_single_space (s : Scene) (es : list Event) :
  keyboard s = Some [spaceListener] ->
  logged s es = emissions "keydown-SPACE"%string es.
Proof.
  intro Hk. induction es as [|[name|t d] rest IH]; cbn [logged emissions].
  - reflexivity.
  - rewrite IH. unfold listenerCalls. rewrite Hk. cbn [listening spaceListener event].
    rewrite String.eqb_sym, Nat.add_0_r. reflexivity.
  - exact IH.
Qed.

Lemma logged_no_listener (s : Scene) (es : list Event) :
  keyboard s = None \/ keyboard s = Some [] ->
  logged s es = 0%nat.
Proof.
  intro Hk. induction es as [|[name|t d] rest IH]; cbn [logged].
  - reflexivity.
  - rewrite IH. unfold listenerCalls.
    destruct Hk as [Hk|Hk]; rewrite Hk; reflexivity.
  - exact IH.
Qed.

(** X2: on a freshly constructed scene no event logs anything before the scene
    is started.  Once it is started (preload, then create) with a keyboard
    plugin, the console gains exactly one line per emission of
    keydown-SPACE and nothing for any other event or any frame; started
    with a null plugin it never logs anything.  The scene itself is the
    same after the events as before. *)
Theorem console_counts_space_presses :
  forall (c : list string) (es : list Event),
    exec (run es) (freshWorld (Some []) c) = freshWorld (Some []) c /\
    exec (run es) (freshWorld None c) = freshWorld None c /\
    exec (run es) (exec start (freshWorld (Some []) c)) =
      {| this := this (exec start (freshWorld (Some []) c));
         console :=
           c ++ repeat "Game starting..."%string
                  (emissions "keydown-SPACE"%string es) |} /\
    exec (run es) (exec start (freshWorld None c)) =
      exec start (freshWorld None c).
Proof.
  intros c es. split; [|split; [|split]].
  - rewrite exec_run.
    rewrite (logged_no_listener _ es) by (right; reflexivity).
    cbn. rewrite app_nil_r. reflexivity.
  - rewrite exec_run.
    rewrite (logged_no_listener _ es) by (left; reflexivity).
    cbn. rewrite app_nil_r. reflexivity.
  - rewrite exec_run.
    rewrite (logged_single_space _ es) by reflexivity.
    reflexivity.
  - rewrite exec_run.
    rewrite (logged_no_listener _ es) by (left; reflexivity).
    cbn. rewrite app_nil_r. reflexivity.
Qed.

End SceneLifecycle.
